(** * math3d: the Vector3 type of gotrace (src/math3d/vector.go)

    Go's [float64] is IEEE-754 binary64.  It is embedded as Rocq's primitive
    [float], the same format with the same correctly rounded operations
    (round to nearest, ties to even); every operation of the source is
    rounded on its own, as the gc compiler does on amd64 (no fused
    multiply-add).  Rocq's floats have one NaN: payloads and the sign of a
    NaN, which no operation of this package can observe, are not modelled.

    General facts are proved on the specification [spec_float] of the
    Standard Library and carried to [float] through [Prim2SF]. *)

From Stdlib Require Import ZArith Lia Bool.
From Stdlib Require Import Floats.
From stdpp Require Import base strings gmap.

Local Open Scope float_scope.

(** ** The package's data *)

Abbreviation float64 := float (only parsing).

(** [const threshold float64 = 0.00001]: the constant is converted to the
    nearest binary64 value, given here in hexadecimal so that it is exact
    (see [threshold_nearest]). *)
Definition threshold : float64 := 0x1.4f8b588e368f1p-17.

Record Vector3 := mkVector3 { X : float64; Y : float64; Z : float64 }.

Definition UnitX := {| X := 1; Y := 0; Z := 0 |}.
Definition UnitY := {| X := 0; Y := 1; Z := 0 |}.
Definition UnitZ := {| X := 0; Y := 0; Z := 1 |}.

(** ** The operations, in the order of the source *)

(** [math.Sqrt(v.X*v.X + v.Y*v.Y + v.Z*v.Z)] *)
Definition Abs (v : Vector3) : float64 :=
  sqrt (X v * X v + Y v * Y v + Z v * Z v).

Definition Divide (v : Vector3) (k : float64) : Vector3 :=
  {| X := X v / k; Y := Y v / k; Z := Z v / k |}.

Definition Normalized (v : Vector3) : Vector3 := Divide v (Abs v).

Definition Multiply (v : Vector3) (k : float64) : Vector3 :=
  {| X := X v * k; Y := Y v * k; Z := Z v * k |}.

Definition Add (v v2 : Vector3) : Vector3 :=
  {| X := X v + X v2; Y := Y v + Y v2; Z := Z v + Z v2 |}.

(** The method [(v *Vector3) Subtract]. *)
Definition Subtract (v v2 : Vector3) : Vector3 :=
  {| X := X v - X v2; Y := Y v - Y v2; Z := Z v - Z v2 |}.

Definition Dot (v v2 : Vector3) : float64 :=
  X v * X v2 + Y v * Y v2 + Z v * Z v2.

Definition Cross (v v2 : Vector3) : Vector3 :=
  {| X := Y v * Z v2 - Z v * Y v2;
     Y := Z v * X v2 - X v * Z v2;
     Z := X v * Y v2 - Y v * X v2 |}.

(** The package-level function [Subtract(pointA, pointB)]; Go keeps it apart
    from the method by its receiver, Rocq by its name. *)
Definition SubtractPoints (pointA pointB : Vector3) : Vector3 :=
  {| X := X pointA - X pointB;
     Y := Y pointA - Y pointB;
     Z := Z pointA - Z pointB |}.

Definition Distance (pointA pointB : Vector3) : float64 :=
  Abs (SubtractPoints pointA pointB).

(** [v.Subtract(normal).Multiply(v.Dot(normal) * 2)] *)
Definition Reflect (v normal : Vector3) : Vector3 :=
  Multiply (Subtract v normal) (Dot v normal * 2).

(** [math.Abs] clears the sign bit, which is [abs]; [&&] has no effect to
    short-circuit here, so it is [&&] on [bool]. *)
Definition Equal (v v2 : Vector3) : bool :=
  (abs (X v - X v2) <? threshold) &&
  (abs (Y v - Y v2) <? threshold) &&
  (abs (Z v - Z v2) <? threshold).

Definition Differ (v v2 : Vector3) : bool := negb (Equal v v2).

Definition LesserOrEqual (v v2 : Vector3) : bool :=
  (X v - X v2 <=? threshold) &&
  (Y v - Y v2 <=? threshold) &&
  (Z v - Z v2 <=? threshold).

Definition GreaterOrEqual (v v2 : Vector3) : bool :=
  (X v2 - X v <=? threshold) &&
  (Y v2 - Y v <=? threshold) &&
  (Z v2 - Z v <=? threshold).

(** ** Maps and dynamic values *)

(** A value of Go's [interface{}]: the nil interface, or a value together
    with its dynamic type.  [Other] stands for every dynamic type that is
    not listed, by its name. *)
Inductive any :=
  | Nil
  | Float64 (f : float64)
  | Int (n : BinNums.Z)
  | Bool (b : bool)
  | String (s : string)
  | Other (type_name : string).

(** What the runtime reports when [x.(float64)] fails: the dynamic type of
    [x], or nothing for the nil interface. *)
Definition dynamic_type (x : any) : option string :=
  match x with
  | Nil => None
  | Float64 _ => Some "float64"%string
  | Int _ => Some "int"%string
  | Bool _ => Some "bool"%string
  | String _ => Some "string"%string
  | Other t => Some t
  end.

(** A call either returns or panics with a [*runtime.TypeAssertionError];
    the source has no [recover] and no error result. *)
Inductive outcome (A : Type) :=
  | Return (a : A)
  | Panic (concrete : option string).
Arguments Return {A} a.
Arguments Panic {A} concrete.

#[global] Instance outcome_ret : MRet outcome := fun A a => Return a.

#[global] Instance outcome_bind : MBind outcome := fun A B k o =>
  match o with
  | Return a => k a
  | Panic c => Panic c
  end.

(** [m[k]]: the zero value of [interface{}], nil, when [k] is absent. *)
Definition index (m : gmap string any) (k : string) : any :=
  default Nil (m !! k).

(** [x.(float64)], the one-result form, which panics. *)
Definition assert_float64 (x : any) : outcome float64 :=
  match x with
  | Float64 f => Return f
  | _ => Panic (dynamic_type x)
  end.

Definition AsMap (v : Vector3) : gmap string float64 :=
  {[ "x"%string := X v; "y"%string := Y v; "z"%string := Z v ]}.

(** The three fields are evaluated from left to right. *)
Definition VectorFromMap (m : gmap string any) : outcome Vector3 :=
  x ← assert_float64 (index m "x");
  y ← assert_float64 (index m "y");
  z ← assert_float64 (index m "z");
  mret {| X := x; Y := y; Z := z |}.

(** Go has no conversion from [map[string]float64] to
    [map[string]interface{}]: a caller that feeds [AsMap]'s result to
    [VectorFromMap] stores each value in an interface, keeping its dynamic
    type [float64]. *)
Definition boxed (m : gmap string float64) : gmap string any :=
  Float64 <$> m.


(** ** Vocabulary of the statements *)

(** All three components are finite: neither NaN nor an infinity. *)
Definition Finite (v : Vector3) : bool :=
  is_finite (X v) && is_finite (Y v) && is_finite (Z v).

(** The conventional reflection [v - 2 (v . n) n].  It is not in the source:
    it is what [Reflect] is compared with. *)
Definition conventional_reflection (v n : Vector3) : Vector3 :=
  Subtract v (Multiply n (2 * Dot v n)).

(** The key is absent from the map, or present with a value that is not a
    [float64]. *)
Definition missing_or_not_float64 (m : gmap string any) (k : string) : Prop :=
  m !! k = None \/ exists x, m !! k = Some x /\ forall f, x <> Float64 f.

(** The decimal constants of the boundary examples, as the nearest binary64
    values: 0.000005 and 0.00002. *)
Definition five_millionths : float64 := 0x1.4f8b588e368f1p-18.
Definition two_hundred_thousandths : float64 := 0x1.4f8b588e368f1p-16.

Definition origin : Vector3 := {| X := 0; Y := 0; Z := 0 |}.

(** ** Facts about the binary64 specification *)

Module SF.

Abbreviation round_aux := (binary_round_aux prec emax).

(** A value that is not NaN and whose sign bit is [s]. *)
Definition signed (s : bool) (x : spec_float) : Prop :=
  match x with
  | S754_zero s' | S754_infinity s' | S754_finite s' _ _ => s' = s
  | S754_nan => False
  end.

Abbreviation nonneg := (signed false).

(** A zero or a finite non-zero value. *)
Definition finiteb (x : spec_float) : bool :=
  match x with
  | S754_zero _ | S754_finite _ _ _ => true
  | _ => false
  end.

Definition nanb (x : spec_float) : bool :=
  match x with S754_nan => true | _ => false end.

Definition infb (x : spec_float) : bool :=
  match x with S754_infinity _ => true | _ => false end.

Definition zerob (x : spec_float) : bool :=
  match x with S754_zero _ => true | _ => false end.

Lemma mul_comm x y : SF64mul x y = SF64mul y x.
Proof.
  destruct x as [sx|sx| |sx mx ex], y as [sy|sy| |sy my ey]; cbn;
    rewrite ?(xorb_comm sy sx); try reflexivity.
  now rewrite (Pos.mul_comm my mx), (Z.add_comm ey ex).
Qed.

(** Rounding treats the sign as a label: it decides nothing. *)
Lemma abs_round_aux s s' m e l :
  SFabs (round_aux s m e l) = SFabs (round_aux s' m e l).
Proof.
  unfold binary_round_aux.
  destruct (shr_fexp prec emax m e l) as [mrs e1].
  destruct (shr_fexp _ _ _ _ _) as [mrs2 e2].
  destruct (shr_m mrs2); [reflexivity| |reflexivity].
  now destruct (_ <=? _)%Z.
Qed.

Lemma abs_round s s' m e :
  SFabs (binary_round prec emax s m e) = SFabs (binary_round prec emax s' m e).
Proof.
  unfold binary_round. destruct (shl_align _ _ _) as [mz ez].
  apply abs_round_aux.
Qed.

Lemma abs_normalize_opp m e :
  SFabs (binary_normalize prec emax (- m) e false) =
  SFabs (binary_normalize prec emax m e false).
Proof. destruct m; cbn [Z.opp binary_normalize]; [reflexivity| |]; apply abs_round. Qed.

(** [x - y] and [y - x] differ at most in their sign. *)
Lemma abs_sub_swap x y : SFabs (SF64sub x y) = SFabs (SF64sub y x).
Proof.
  destruct x as [sx|sx| |sx mx ex], y as [sy|sy| |sy my ey];
    try (destruct sx, sy; reflexivity); try reflexivity.
  unfold SF64sub, SFsub. rewrite (Z.min_comm ey ex).
  rewrite <- abs_normalize_opp. f_equal. f_equal. lia.
Qed.

Lemma xorb_diag s : xorb s s = false.
Proof. now destruct s. Qed.

(** A square forgets the sign of its argument. *)
Lemma mul_self_abs x y : SFabs x = SFabs y -> SF64mul x x = SF64mul y y.
Proof.
  destruct x as [sx|sx| |sx mx ex], y as [sy|sy| |sy my ey];
    cbn; intros H; inversion H; rewrite ?xorb_diag; reflexivity.
Qed.

(** *** Rounding a non-negative mantissa never yields NaN *)

Lemma iter_pos_inv {A} (P : A -> Prop) (f : A -> A) :
  (forall a, P a -> P (f a)) -> forall p a, P a -> P (SpecFloat.iter_pos f p a).
Proof.
  intros Hf p; induction p as [p IH|p IH|]; intros a Ha; cbn; auto.
Qed.

Lemma shr_1_nonneg mrs : (0 <= shr_m mrs)%Z -> (0 <= shr_m (shr_1 mrs))%Z.
Proof.
  destruct mrs as [m r t]; cbn.
  destruct m as [|[p|p|]|[p|p|]]; cbn; lia.
Qed.

Lemma shr_nonneg mrs e n :
  (0 <= shr_m mrs)%Z -> (0 <= shr_m (fst (shr mrs e n)))%Z.
Proof.
  intros H; destruct n; cbn; auto.
  apply (iter_pos_inv (fun r => 0 <= shr_m r)%Z); auto using shr_1_nonneg.
Qed.

Lemma shr_fexp_nonneg m e l :
  (0 <= m)%Z -> (0 <= shr_m (fst (shr_fexp prec emax m e l)))%Z.
Proof.
  intros H; unfold shr_fexp; apply shr_nonneg.
  now destruct l as [|[]].
Qed.

Lemma round_nearest_even_nonneg m l :
  (0 <= m)%Z -> (0 <= round_nearest_even m l)%Z.
Proof.
  intros H; destruct l as [|[]]; cbn; try lia.
  destruct (Z.even m); lia.
Qed.

Lemma round_aux_signed s m e l : (0 <= m)%Z -> signed s (round_aux s m e l).
Proof.
  intros H; unfold binary_round_aux.
  pose proof (shr_fexp_nonneg m e l H) as H1.
  destruct (shr_fexp prec emax m e l) as [mrs e1]; cbn [fst] in H1.
  pose proof (shr_fexp_nonneg _ e1 loc_Exact
                (round_nearest_even_nonneg _ (loc_of_shr_record mrs) H1)) as H2.
  destruct (shr_fexp _ _ _ _ _) as [mrs2 e2]; cbn [fst] in H2.
  destruct (shr_m mrs2); [reflexivity| |lia].
  now destruct (_ <=? _)%Z.
Qed.

Lemma round_signed s m e : signed s (binary_round prec emax s m e).
Proof.
  unfold binary_round. destruct (shl_align _ _ _) as [mz ez].
  now apply round_aux_signed.
Qed.

Lemma signed_not_nan s x : signed s x -> nanb x = false.
Proof. now destruct x. Qed.

Lemma normalize_not_nan m e s : nanb (binary_normalize prec emax m e s) = false.
Proof.
  destruct m; cbn [binary_normalize]; [reflexivity| |];
    eapply signed_not_nan, round_signed.
Qed.

Lemma sub_finite x y :
  finiteb x = true -> finiteb y = true -> nanb (SF64sub x y) = false.
Proof.
  destruct x as [sx|sx| |sx mx ex], y as [sy|sy| |sy my ey];
    try discriminate; intros _ _; try (now destruct sx, sy); try reflexivity.
  apply normalize_not_nan.
Qed.

Lemma mul_self_nonneg x : nanb x = false -> nonneg (SF64mul x x).
Proof.
  destruct x as [s|s| |s m e]; try discriminate; intros _; cbn;
    try apply xorb_diag.
  rewrite xorb_diag. now apply (round_aux_signed false).
Qed.

Lemma add_nonneg x y : nonneg x -> nonneg y -> nonneg (SF64add x y).
Proof.
  destruct x as [sx|sx| |sx mx ex], y as [sy|sy| |sy my ey]; cbn [nonneg];
    try contradiction; intros -> ->; try reflexivity.
  unfold SF64add, SFadd. cbn [cond_Zopp Z.add binary_normalize].
  apply (round_signed false).
Qed.

Lemma sqrt_nonneg x : nonneg x -> nonneg (SF64sqrt x).
Proof.
  destruct x as [s|s| |s m e]; cbn [nonneg]; try contradiction;
    intros ->; try reflexivity.
  unfold SF64sqrt, SFsqrt, SFsqrt_core_binary.
  match goal with |- context [Z.sqrtrem ?n] =>
    pose proof (Z.sqrtrem_sqrt n) as Hq; pose proof (Z.sqrt_nonneg n) as Hn;
    destruct (Z.sqrtrem n) as [q r] end.
  cbn [fst] in Hq; subst q. now apply (round_aux_signed false).
Qed.

(** *** Comparisons and differences of a value with itself *)

Lemma compare_refl x : SFcompare x x = if nanb x then None else Some Eq.
Proof.
  destruct x as [s|s| |s m e]; cbn; try reflexivity; [now destruct s|].
  rewrite Z.compare_refl, Pos.compare_cont_refl. now destruct s.
Qed.

Lemma eqb_refl x : SFeqb x x = negb (nanb x).
Proof. unfold SFeqb. rewrite compare_refl. now destruct (nanb x). Qed.

Lemma sub_diag x :
  SF64sub x x = if finiteb x then S754_zero false else S754_nan.
Proof.
  destruct x as [s|s| |s m e]; try (now destruct s); [reflexivity|].
  unfold SF64sub, SFsub. now rewrite Z.sub_diag.
Qed.

(** Dividing by a zero gives an infinity or NaN, whatever is divided. *)
Lemma div_zero x k : zerob k = true -> infb (SF64div x k) || nanb (SF64div x k) = true.
Proof. destruct k; try discriminate; intros _; now destruct x. Qed.

(** *** Commutativity, and the sign under a swapped difference *)

Lemma add_comm x y : SF64add x y = SF64add y x.
Proof.
  destruct x as [sx|sx| |sx mx ex], y as [sy|sy| |sy my ey];
    try (destruct sx, sy; reflexivity); try reflexivity.
  unfold SF64add, SFadd. now rewrite (Z.min_comm ey ex), Z.add_comm.
Qed.

Lemma round_aux_opp s m e l :
  round_aux (negb s) m e l = SFopp (round_aux s m e l).
Proof.
  unfold binary_round_aux.
  destruct (shr_fexp prec emax m e l) as [mrs e1].
  destruct (shr_fexp _ _ _ _ _) as [mrs2 e2].
  destruct (shr_m mrs2); [reflexivity| |reflexivity].
  now destruct (_ <=? _)%Z.
Qed.

Lemma round_opp s m e :
  binary_round prec emax (negb s) m e = SFopp (binary_round prec emax s m e).
Proof.
  unfold binary_round. destruct (shl_align _ _ _) as [mz ez].
  apply round_aux_opp.
Qed.

(** [y - x] is the opposite of [x - y], except that both are +0 when the
    difference is an exact zero. *)
Lemma sub_swap x y :
  SF64sub y x = SFopp (SF64sub x y) \/
  (SF64sub x y = S754_zero false /\ SF64sub y x = S754_zero false).
Proof.
  destruct x as [sx|sx| |sx mx ex], y as [sy|sy| |sy my ey];
    try (destruct sx, sy; cbn; auto; fail); try (cbn; auto; fail).
  unfold SF64sub, SFsub. rewrite (Z.min_comm ey ex).
  set (a := cond_Zopp sx _). set (b := cond_Zopp sy _).
  replace (b - a)%Z with (- (a - b))%Z by lia.
  destruct (a - b)%Z as [|p|p]; cbn [Z.opp binary_normalize]; auto; left.
  - apply (round_opp false).
  - apply (round_opp true).
Qed.

Lemma eqb_opp_swap x y :
  SFeqb (SF64sub x y) (SFopp (SF64sub y x)) = negb (nanb (SF64sub x y)).
Proof.
  destruct (sub_swap x y) as [->|[-> ->]]; [|reflexivity].
  destruct (SF64sub x y) as [s|s| |s m e]; cbn [SFopp];
    rewrite ?negb_involutive; apply eqb_refl.
Qed.

(** *** Absorbing operands *)

Lemma add_nan_r x : SF64add x S754_nan = S754_nan.
Proof. now destruct x. Qed.

Lemma mul_self_nan x : nanb (SF64mul x x) = nanb x.
Proof.
  destruct x as [s|s| |s m e]; try reflexivity.
  apply (signed_not_nan false), mul_self_nonneg. reflexivity.
Qed.

Lemma add_nonneg_nan x y :
  nanb x = true \/ nonneg x -> nanb y = true \/ nonneg y ->
  nanb (SF64add x y) = nanb x || nanb y.
Proof.
  intros [Hx|Hx] [Hy|Hy].
  - destruct x; try discriminate. reflexivity.
  - destruct x; try discriminate. reflexivity.
  - destruct y; try discriminate. rewrite add_nan_r. symmetry. apply orb_true_r.
  - rewrite (signed_not_nan _ _ Hx), (signed_not_nan _ _ Hy).
    apply (signed_not_nan false), add_nonneg; assumption.
Qed.

Lemma nan_or_nonneg_mul_self x :
  nanb (SF64mul x x) = true \/ nonneg (SF64mul x x).
Proof.
  destruct (nanb x) eqn:E; [left; now rewrite mul_self_nan|right].
  now apply mul_self_nonneg.
Qed.

Lemma nan_or_nonneg_add x y :
  nanb x = true \/ nonneg x -> nanb y = true \/ nonneg y ->
  nanb (SF64add x y) = true \/ nonneg (SF64add x y).
Proof.
  intros Hx Hy. pose proof (add_nonneg_nan x y Hx Hy) as E.
  destruct Hx as [Hx|Hx]; [left; now rewrite E, Hx|].
  destruct Hy as [Hy|Hy]; [left; rewrite E, Hy; apply orb_true_r|].
  right. now apply add_nonneg.
Qed.

Lemma sqrt_nonneg_nan x :
  nanb x = true \/ nonneg x -> nanb (SF64sqrt x) = nanb x.
Proof.
  intros [H|H]; [now destruct x|].
  rewrite (signed_not_nan _ _ H). now apply (signed_not_nan false), sqrt_nonneg.
Qed.

Lemma nonneg_leb x : nonneg x -> SFleb (S754_zero false) x = true.
Proof. destruct x as [s|s| |s m e]; cbn; try contradiction; now intros ->. Qed.

Lemma nonneg_not_ltb x : nanb x = true \/ nonneg x -> SFltb x (S754_zero false) = false.
Proof.
  intros [H|H]; destruct x as [s|s| |s m e]; try discriminate;
    cbn in H; try contradiction; subst; reflexivity.
Qed.

(** *** One axis of the comparisons *)

(** A difference whose absolute value is below a finite bound comes from two
    finite operands. *)
Lemma abs_sub_ltb_finite x y t :
  finiteb t = true -> SFltb (SFabs (SF64sub x y)) t = true ->
  finiteb x = true /\ finiteb y = true.
Proof.
  destruct t as [st|st| |st mt et]; try discriminate; intros _;
    destruct x as [sx|sx| |sx mx ex], y as [sy|sy| |sy my ey];
    try (destruct sx, sy; discriminate); try discriminate; auto.
Qed.

Lemma abs_ltb_leb x t : SFltb (SFabs x) t = true -> SFleb x t = true.
Proof.
  destruct x as [sx|sx| |sx mx ex]; try discriminate.
  - now destruct t as [st|[]| |[] mt et].
  - now destruct t as [st|[]| |[] mt et].
  - destruct sx; [|unfold SFltb, SFleb; cbn [SFabs];
                    now destruct (SFcompare _ _) as [[]|]].
    now destruct t as [st|[]| |[] mt et].
Qed.

(** *** Multiplying and dividing by zero *)

Lemma mul_zero_zerob x k : zerob k = true -> zerob (SF64mul x k) = finiteb x.
Proof. destruct k; try discriminate; intros _; now destruct x. Qed.

Lemma mul_zero_nanb x k :
  zerob k = true -> nanb (SF64mul x k) = negb (finiteb x).
Proof. destruct k; try discriminate; intros _; now destruct x. Qed.

Lemma div_zero_nanb x k :
  zerob k = true -> nanb (SF64div x k) = nanb x || zerob x.
Proof. destruct k; try discriminate; intros _; now destruct x. Qed.

Lemma div_zero_infb x k :
  zerob k = true -> infb (SF64div x k) = negb (nanb x || zerob x).
Proof. destruct k; try discriminate; intros _; now destruct x. Qed.

(** *** Zero as an operand of sums and differences *)

Lemma sub_zero x : SF64sub x (S754_zero false) = x.
Proof. now destruct x as [[]|s| |s m e]. Qed.

Lemma add_zero x :
  SF64add x (S754_zero false) = if zerob x then S754_zero false else x.
Proof. now destruct x as [[]|s| |s m e]. Qed.

(** *** An infinite operand *)

Lemma add_inf_l y : nonneg y -> SF64add (S754_infinity false) y = S754_infinity false.
Proof. destruct y as [s|s| |s m e]; cbn; try contradiction; now intros ->. Qed.

Lemma div_inf x :
  SF64div x (S754_infinity false) =
  match x with
  | S754_zero s | S754_finite s _ _ => S754_zero s
  | _ => S754_nan
  end.
Proof. destruct x as [s|s| |s m e]; cbn; rewrite ?xorb_false_r; reflexivity. Qed.

(** *** Multiplying a binary64 value by 1 or -1 is exact *)

Section Unit.
Local Open Scope Z_scope.

Lemma digits_shl n m :
  Z.pos (digits2_pos (Nat.iter n xO m)) = Z.pos (digits2_pos m) + Z.of_nat n.
Proof.
  induction n as [|n IH]; [cbn; lia|].
  change (Nat.iter (S n) xO m) with (xO (Nat.iter n xO m)).
  cbn [digits2_pos]. rewrite Pos2Z.inj_succ, IH. lia.
Qed.

(** A valid mantissa sits at its canonical exponent, below the largest. *)
Lemma canonical_exp m e :
  bounded prec emax m e = true ->
  fexp prec emax (Z.pos (digits2_pos m) + e) = e /\ (e <=? emax - prec) = true.
Proof.
  unfold bounded, canonical_mantissa. intros H.
  apply andb_prop in H as [H1 H2]. split; [now apply Z.eqb_eq|exact H2].
Qed.

Lemma shr_fexp_shl52 m e :
  bounded prec emax m e = true ->
  shr_fexp prec emax (Z.pos (Nat.iter 52 xO m)) (e + -52) loc_Exact =
  ({| shr_m := Z.pos m; shr_r := false; shr_s := false |}, e).
Proof.
  intros H. destruct (canonical_exp m e H) as [Hc _].
  unfold shr_fexp. cbn [Zdigits2]. rewrite digits_shl.
  replace (Z.pos (digits2_pos m) + Z.of_nat 52 + (e + -52))
    with (Z.pos (digits2_pos m) + e) by lia.
  rewrite Hc. replace (e - (e + -52)) with 52 by lia.
  cbv beta iota delta [shr]. f_equal. lia.
Qed.

Lemma shr_fexp_canonical m e :
  bounded prec emax m e = true ->
  shr_fexp prec emax (Z.pos m) e loc_Exact =
  ({| shr_m := Z.pos m; shr_r := false; shr_s := false |}, e).
Proof.
  intros H. destruct (canonical_exp m e H) as [Hc _].
  unfold shr_fexp. cbn [Zdigits2]. rewrite Hc, Z.sub_diag. reflexivity.
Qed.

(** 1 and -1 are the mantissa 2^52 at exponent -52. *)
Lemma mul_unit_finite s s1 m e :
  bounded prec emax m e = true ->
  SF64mul (S754_finite s m e) (S754_finite s1 4503599627370496 (-52)) =
  S754_finite (xorb s s1) m e.
Proof.
  intros H. unfold SF64mul, SFmul.
  rewrite (Pos.mul_comm m).
  change (4503599627370496 * m)%positive with (Nat.iter 52 xO m).
  unfold binary_round_aux. rewrite (shr_fexp_shl52 m e H).
  cbn [shr_m loc_of_shr_record round_nearest_even].
  rewrite (shr_fexp_canonical m e H). cbn [shr_m].
  now destruct (canonical_exp m e H) as [_ ->].
Qed.

Lemma mul_one x :
  valid_binary x = true ->
  SF64mul x (S754_finite false 4503599627370496 (-52)) = x.
Proof.
  destruct x as [s|s| |s m e]; cbn [SpecFloat.valid_binary]; intros H;
    try (cbn; now rewrite ?xorb_false_r).
  now rewrite mul_unit_finite, xorb_false_r.
Qed.

Lemma mul_neg_one x :
  valid_binary x = true ->
  SF64mul x (S754_finite true 4503599627370496 (-52)) = SFopp x.
Proof.
  destruct x as [s|s| |s m e]; cbn [SpecFloat.valid_binary]; intros H;
    try (cbn; now rewrite ?xorb_true_r).
  now rewrite mul_unit_finite, xorb_true_r.
Qed.

Lemma round_aux_canonical s m e :
  bounded prec emax m e = true ->
  round_aux s (Z.pos m) e loc_Exact = S754_finite s m e.
Proof.
  intros H. unfold binary_round_aux. rewrite (shr_fexp_canonical m e H).
  cbn [shr_m loc_of_shr_record round_nearest_even].
  rewrite (shr_fexp_canonical m e H). cbn [shr_m].
  now destruct (canonical_exp m e H) as [_ ->].
Qed.

Lemma round_aux_double s m e :
  bounded prec emax m e = true ->
  round_aux s (Z.pos m~0) (e - 1) loc_Exact = S754_finite s m e.
Proof.
  intros H. destruct (canonical_exp m e H) as [Hc Hb].
  unfold binary_round_aux.
  assert (E : shr_fexp prec emax (Z.pos m~0) (e - 1) loc_Exact =
              ({| shr_m := Z.pos m; shr_r := false; shr_s := false |}, e)).
  { unfold shr_fexp. cbn [Zdigits2 digits2_pos]. rewrite Pos2Z.inj_succ.
    replace (Z.succ (Z.pos (digits2_pos m)) + (e - 1))
      with (Z.pos (digits2_pos m) + e) by lia.
    rewrite Hc. replace (e - (e - 1)) with 1 by lia.
    cbv beta iota delta [shr]. f_equal. lia. }
  rewrite E. cbn [shr_m loc_of_shr_record round_nearest_even].
  rewrite (shr_fexp_canonical m e H). cbn [shr_m]. now rewrite Hb.
Qed.

Lemma div_eucl_exact q b : 0 < b -> Z.div_eucl (q * b) b = (q, 0).
Proof.
  intros Hb. pose proof (Z.div_mul q b ltac:(lia)) as Hq.
  pose proof (Z.mod_mul q b ltac:(lia)) as Hr.
  unfold Z.div, Z.modulo in Hq, Hr.
  destruct (Z.div_eucl (q * b) b) as [q' r']. now subst.
Qed.

Lemma div_unit_finite s s1 m e :
  bounded prec emax m e = true ->
  SF64div (S754_finite s m e) (S754_finite s1 4503599627370496 (-52)) =
  S754_finite (xorb s s1) m e.
Proof.
  intros H. destruct (canonical_exp m e H) as [Hc Hb].
  unfold SF64div, SFdiv, SFdiv_core_binary.
  cbn [Zdigits2]. change (Z.pos (digits2_pos 4503599627370496)) with 53.
  set (d := Z.pos (digits2_pos m)) in *.
  assert (Hd : 0 < d) by (unfold d; lia).
  assert (He : fexp prec emax (d + e - (53 + -52)) = e \/
               fexp prec emax (d + e - (53 + -52)) = e - 1).
  { revert Hc. unfold fexp, SpecFloat.emin, prec, emax. lia. }
  destruct He as [-> | ->].
  - replace (Z.min e (e - -52)) with e by lia.
    replace (e - -52 - e) with 52 by lia. cbv beta iota.
    rewrite Z.shiftl_mul_pow2 by lia.
    change (2 ^ 52) with 4503599627370496.
    rewrite (div_eucl_exact (Z.pos m) 4503599627370496) by lia.
    change (new_location 4503599627370496 0) with loc_Exact.
    now apply round_aux_canonical.
  - replace (Z.min (e - 1) (e - -52)) with (e - 1) by lia.
    replace (e - -52 - (e - 1)) with 53 by lia. cbv beta iota.
    rewrite Z.shiftl_mul_pow2 by lia.
    replace (Z.pos m * 2 ^ 53) with (Z.pos m~0 * 4503599627370496) by lia.
    rewrite (div_eucl_exact (Z.pos m~0) 4503599627370496) by lia.
    change (new_location 4503599627370496 0) with loc_Exact.
    now apply round_aux_double.
Qed.

Lemma div_one x :
  valid_binary x = true ->
  SF64div x (S754_finite false 4503599627370496 (-52)) = x.
Proof.
  destruct x as [s|s| |s m e]; cbn [SpecFloat.valid_binary]; intros H;
    try (cbn; now rewrite ?xorb_false_r).
  now rewrite div_unit_finite, xorb_false_r.
Qed.

End Unit.

(** *** Sums of squares *)

Lemma nan_or_nonneg_sqrt x :
  nanb x = true \/ nonneg x -> nanb (SF64sqrt x) = true \/ nonneg (SF64sqrt x).
Proof.
  intros [H|H]; [left; now destruct x|right; now apply sqrt_nonneg].
Qed.

Lemma mul_self_inf x : infb x = true -> SF64mul x x = S754_infinity false.
Proof. destruct x as [s|s| |s m e]; try discriminate. now destruct s. Qed.

Lemma add_inf_r x : nonneg x -> SF64add x (S754_infinity false) = S754_infinity false.
Proof. intros H. rewrite add_comm. now apply add_inf_l. Qed.

(** The square root of a sum of three squares, one of them of an infinity
    and none of NaN, is +Inf. *)
Lemma sqrt_sum_squares_inf x y z :
  nanb x = false -> nanb y = false -> nanb z = false ->
  infb x || infb y || infb z = true ->
  SF64sqrt (SF64add (SF64add (SF64mul x x) (SF64mul y y)) (SF64mul z z)) =
  S754_infinity false.
Proof.
  intros Hx Hy Hz H.
  pose proof (mul_self_nonneg x Hx) as Nx.
  pose proof (mul_self_nonneg y Hy) as Ny.
  pose proof (mul_self_nonneg z Hz) as Nz.
  apply orb_true_iff in H as [H|H]; [apply orb_true_iff in H as [H|H]|].
  - rewrite (mul_self_inf x H) in *. now rewrite !add_inf_l.
  - rewrite (mul_self_inf y H) in *. now rewrite add_inf_r, add_inf_l.
  - rewrite (mul_self_inf z H) in *. rewrite add_inf_r; [reflexivity|].
    now apply add_nonneg.
Qed.

(** A difference that compares below anything has no NaN operand. *)
Lemma sub_leb_not_nan x y t :
  SFleb (SF64sub x y) t = true -> nanb x = false /\ nanb y = false.
Proof.
  destruct x as [sx|sx| |sx mx ex], y as [sy|sy| |sy my ey];
    try discriminate; auto.
Qed.

(** A zero times a finite value is a zero. *)
Lemma zero_mul_zerob x k :
  zerob x = true -> finiteb k = true -> zerob (SF64mul x k) = true.
Proof.
  destruct x; try discriminate; intros _. now destruct k.
Qed.

(** A value and its opposite are both below a bound exactly when its
    absolute value is. *)
Lemma abs_leb x t : SFleb (SFabs x) t = SFleb x t && SFleb (SFopp x) t.
Proof.
  destruct x as [[]|[]| |[] m e], t as [[]|[]| |[] mt et];
    try reflexivity; unfold SFleb; cbn;
    destruct (Z.compare e et); try reflexivity;
    destruct (Pos.compare_cont Eq m mt); reflexivity.
Qed.

Lemma abs_sub_leb x y t :
  SFleb (SFabs (SF64sub x y)) t = SFleb (SF64sub x y) t && SFleb (SF64sub y x) t.
Proof.
  destruct (sub_swap x y) as [->|[-> ->]]; [apply abs_leb|].
  cbn [SFabs]. now destruct (SFleb _ _).
Qed.

End SF.

(** ** From the specification to the primitive floats *)

Lemma Prim2SF_threshold :
  Prim2SF threshold = S754_finite false 5902958103587057 (-69).
Proof. reflexivity. Qed.

(** [threshold] is the binary64 value nearest to 1/100000: it has a full
    53-bit mantissa [m] and exponent -69, and [m * 2^-69] is within half a
    unit in the last place of 1/100000. *)
Lemma threshold_nearest :
  exists m : positive,
    Prim2SF threshold = S754_finite false m (-69) /\
    (2 ^ 52 <= Z.pos m < 2 ^ 53)%Z /\
    (2 * Z.abs (Z.pos m * 100000 - 2 ^ 69) <= 100000)%Z.
Proof.
  exists 5902958103587057%positive. split; [reflexivity|]. cbn. lia.
Qed.

Lemma float_mul_comm (x y : float64) : x * y = y * x.
Proof. apply Prim2SF_inj. rewrite !mul_spec. apply SF.mul_comm. Qed.

Lemma is_nan_spec (x : float64) : is_nan x = SF.nanb (Prim2SF x).
Proof.
  unfold is_nan. rewrite FloatAxioms.eqb_spec, SF.eqb_refl. apply negb_involutive.
Qed.

Lemma is_infinity_spec (x : float64) : is_infinity x = SF.infb (Prim2SF x).
Proof.
  unfold is_infinity. rewrite FloatAxioms.eqb_spec, abs_spec.
  change (Prim2SF infinity) with (S754_infinity false).
  now destruct (Prim2SF x) as [s|s| |s m e].
Qed.

Lemma is_zero_spec (x : float64) : is_zero x = SF.zerob (Prim2SF x).
Proof.
  unfold is_zero. rewrite FloatAxioms.eqb_spec.
  change (Prim2SF zero) with (S754_zero false).
  now destruct (Prim2SF x) as [s|[]| |[] m e].
Qed.

Lemma is_finite_spec (x : float64) : is_finite x = SF.finiteb (Prim2SF x).
Proof.
  unfold is_finite. rewrite is_nan_spec, is_infinity_spec.
  now destruct (Prim2SF x).
Qed.

(** IEEE equality of a value with itself fails exactly on NaN. *)
Lemma float_eqb_refl (x : float64) : (x =? x) = negb (is_nan x).
Proof. unfold is_nan. now rewrite negb_involutive. Qed.

(** One axis of [Equal v v]: [x - x] is +0 for a finite [x] and NaN for an
    infinity or NaN, and NaN is below nothing. *)
Lemma axis_self (x : float64) : (abs (x - x) <? threshold) = is_finite x.
Proof.
  rewrite FloatAxioms.ltb_spec, abs_spec, sub_spec, SF.sub_diag, is_finite_spec.
  now destruct (SF.finiteb (Prim2SF x)).
Qed.

Lemma Equal_self (v : Vector3) : Equal v v = Finite v.
Proof. unfold Equal, Finite. now rewrite !axis_self. Qed.

Lemma sq_sub_swap (a b : float64) : (a - b) * (a - b) = (b - a) * (b - a).
Proof.
  apply Prim2SF_inj. rewrite !mul_spec, !sub_spec.
  apply SF.mul_self_abs, SF.abs_sub_swap.
Qed.

Lemma sq_sub_nonneg (a b : float64) :
  is_finite a = true -> is_finite b = true ->
  SF.nonneg (Prim2SF ((a - b) * (a - b))).
Proof.
  rewrite !is_finite_spec, mul_spec, sub_spec. intros Ha Hb.
  now apply SF.mul_self_nonneg, SF.sub_finite.
Qed.

Lemma Distance_swap (p1 p2 : Vector3) : Distance p1 p2 = Distance p2 p1.
Proof.
  unfold Distance, Abs, SubtractPoints; cbn [X Y Z].
  now rewrite (sq_sub_swap (X p1)), (sq_sub_swap (Y p1)), (sq_sub_swap (Z p1)).
Qed.

Lemma Distance_finite (p1 p2 : Vector3) :
  Finite p1 = true -> Finite p2 = true -> is_nan (Distance p1 p2) = false.
Proof.
  unfold Finite. rewrite !andb_true_iff. intros [[? ?] ?] [[? ?] ?].
  rewrite is_nan_spec. apply (SF.signed_not_nan false).
  unfold Distance, Abs, SubtractPoints; cbn [X Y Z].
  rewrite sqrt_spec, !add_spec.
  apply SF.sqrt_nonneg; repeat apply SF.add_nonneg; now apply sq_sub_nonneg.
Qed.

(** The decimal constants of the boundary examples are the binary64 values
    nearest to 5/1000000 and to 2/100000. *)
Lemma example_constants_nearest :
  Prim2SF five_millionths = S754_finite false 5902958103587057 (-70) /\
  Prim2SF two_hundred_thousandths = S754_finite false 5902958103587057 (-68) /\
  (2 * Z.abs (5902958103587057 * 1000000 - 5 * 2 ^ 70) <= 1000000)%Z /\
  (2 * Z.abs (5902958103587057 * 100000 - 2 * 2 ^ 68) <= 100000)%Z.
Proof. repeat split; cbn; lia. Qed.

(** Two floats that [=?] tells apart are different. *)
Lemma eqb_false_neq (x y : float64) : (x =? y) = false -> is_nan x = false -> x <> y.
Proof. intros H Hx ->. rewrite float_eqb_refl, Hx in H. discriminate. Qed.

(** ** Reflection *)

(** C1: for every vector [v] and normal [n], [Reflect v n] is, component by
    component, [(v - n)] multiplied by the scalar [2 * Dot v n]; this is not
    the conventional reflection [v - 2 (v . n) n], from which it differs
    already at [v = n = UnitX]. *)
Theorem Reflect_literal_formula :
  (forall v n : Vector3,
     Reflect v n =
     {| X := (X v - X n) * (2 * Dot v n);
        Y := (Y v - Y n) * (2 * Dot v n);
        Z := (Z v - Z n) * (2 * Dot v n) |}) /\
  Reflect UnitX UnitX <> conventional_reflection UnitX UnitX.
Proof.
  split.
  - intros v n. unfold Reflect, Multiply, Subtract; cbn [X Y Z].
    now rewrite (float_mul_comm (Dot v n) 2).
  - intros H. apply (f_equal X) in H. revert H.
    now apply eqb_false_neq.
Qed.

(** ** Approximate comparison *)

(** C3: [Equal a b] is true exactly when on each of the three axes the
    absolute value of the difference is strictly below [threshold]; so
    (0,0,0) equals (0,0,0.000005) and does not equal (0,0,0.00002). *)
Theorem Equal_iff_axes_below_threshold :
  (forall a b : Vector3,
     Equal a b = true <->
     (abs (X a - X b) <? threshold) = true /\
     (abs (Y a - Y b) <? threshold) = true /\
     (abs (Z a - Z b) <? threshold) = true) /\
  Equal origin {| X := 0; Y := 0; Z := five_millionths |} = true /\
  Equal origin {| X := 0; Y := 0; Z := two_hundred_thousandths |} = false.
Proof.
  split; [|split; reflexivity].
  intros a b. unfold Equal. rewrite !andb_true_iff. tauto.
Qed.

(** C8: [Differ a b] is the negation of [Equal a b] for all vectors, NaN
    components included, so exactly one of the two is true. *)
Theorem Differ_is_not_Equal (a b : Vector3) :
  Differ a b = negb (Equal a b) /\ xorb (Equal a b) (Differ a b) = true.
Proof. unfold Differ. now destruct (Equal a b). Qed.

(** ** Products *)

(** C7: [Cross a b] is the right-handed cross product, each component
    computed as written; the cross product of [UnitX] and [UnitY] is
    [UnitZ]. *)
Theorem Cross_right_handed :
  (forall a b : Vector3,
     Cross a b =
     {| X := Y a * Z b - Z a * Y b;
        Y := Z a * X b - X a * Z b;
        Z := X a * Y b - Y a * X b |}) /\
  Cross {| X := 1; Y := 0; Z := 0 |} {| X := 0; Y := 1; Z := 0 |} = UnitZ.
Proof. split; reflexivity. Qed.

(** ** Normalisation *)

Lemma div_by_zero (x k : float64) :
  is_zero k = true -> is_infinity (x / k) || is_nan (x / k) = true.
Proof.
  rewrite is_zero_spec, is_infinity_spec, is_nan_spec, div_spec.
  apply SF.div_zero.
Qed.

(** C6: [Normalized v] is [v] divided component by component by its own
    magnitude, the square root of the sum of the squares; a magnitude of
    zero is not treated apart, and every component of the result is then an
    infinity or NaN. *)
Theorem Normalized_divides_by_magnitude (v : Vector3) :
  Normalized v =
  {| X := X v / sqrt (X v * X v + Y v * Y v + Z v * Z v);
     Y := Y v / sqrt (X v * X v + Y v * Y v + Z v * Z v);
     Z := Z v / sqrt (X v * X v + Y v * Y v + Z v * Z v) |} /\
  (is_zero (Abs v) = true ->
   is_infinity (X (Normalized v)) || is_nan (X (Normalized v)) = true /\
   is_infinity (Y (Normalized v)) || is_nan (Y (Normalized v)) = true /\
   is_infinity (Z (Normalized v)) || is_nan (Z (Normalized v)) = true).
Proof.
  split; [reflexivity|]. intros H.
  unfold Normalized, Divide; cbn [X Y Z]. auto using div_by_zero.
Qed.

(** The zero vector has magnitude zero and normalises to three NaNs. *)
Lemma Normalized_divides_by_magnitude_witness :
  is_zero (Abs origin) = true /\
  Normalized origin = {| X := nan; Y := nan; Z := nan |} /\
  is_infinity (X (Normalized origin)) || is_nan (X (Normalized origin)) = true.
Proof.
  split; [reflexivity|]. split; [reflexivity|].
  apply (Normalized_divides_by_magnitude origin). reflexivity.
Defined.

(** Squares that underflow give a magnitude of zero to a vector that is not
    the zero vector; its non-zero component normalises to an infinity. *)
Example Normalized_underflow :
  Normalized {| X := 0x1p-600; Y := 0; Z := 0 |} =
  {| X := infinity; Y := nan; Z := nan |}.
Proof. reflexivity. Qed.

(** The scenario of the specification: (3,4,0) has magnitude 5, and its
    normalisation is the pair of binary64 quotients 3/5 and 4/5. *)
Example Normalized_3_4_0 :
  Abs {| X := 3; Y := 4; Z := 0 |} = 5 /\
  Normalized {| X := 3; Y := 4; Z := 0 |} = {| X := 3 / 5; Y := 4 / 5; Z := 0 |}.
Proof. split; reflexivity. Qed.

(** ** Scenarios of the specification *)

Example unit_magnitudes : Abs UnitX = 1 /\ Abs UnitY = 1 /\ Abs UnitZ = 1.
Proof. repeat split. Qed.

Example units_scenario :
  Add UnitX UnitY = {| X := 1; Y := 1; Z := 0 |} /\
  Dot UnitX UnitY = 0 /\ Dot UnitX UnitX = 1.
Proof. repeat split. Qed.

Example Cross_1_2_3_4_5_6 :
  Cross {| X := 1; Y := 2; Z := 3 |} {| X := 4; Y := 5; Z := 6 |} =
    {| X := -3; Y := 6; Z := -3 |} /\
  Cross {| X := 4; Y := 5; Z := 6 |} {| X := 1; Y := 2; Z := 3 |} =
    {| X := 3; Y := -6; Z := 3 |}.
Proof. split; reflexivity. Qed.

(** ** Distance *)

(** C5, as stated, fails: the distance from a point with a NaN coordinate
    is NaN, and NaN [==] NaN is false. *)
Lemma Distance_symmetry_counterexample :
  (Distance {| X := nan; Y := 0; Z := 0 |} origin =?
   Distance origin {| X := nan; Y := 0; Z := 0 |}) = false.
Proof. reflexivity. Qed.

(** C5, amended: [Distance p1 p2] and [Distance p2 p1] are always the same
    value; they compare equal with [==] exactly when that value is not NaN,
    which is the case whenever all six coordinates are finite. *)
Theorem Distance_symmetry_amended (p1 p2 : Vector3) :
  Distance p1 p2 = Distance p2 p1 /\
  (Distance p1 p2 =? Distance p2 p1) = negb (is_nan (Distance p1 p2)) /\
  (Finite p1 = true -> Finite p2 = true ->
   (Distance p1 p2 =? Distance p2 p1) = true).
Proof.
  rewrite <- (Distance_swap p1 p2), float_eqb_refl. repeat split.
  intros H1 H2. now rewrite Distance_finite.
Qed.

Lemma Distance_symmetry_amended_witness :
  Finite UnitX = true /\ Finite {| X := 3; Y := 4; Z := 0 |} = true /\
  (Distance UnitX {| X := 3; Y := 4; Z := 0 |} =?
   Distance {| X := 3; Y := 4; Z := 0 |} UnitX) = true.
Proof.
  split; [reflexivity|]. split; [reflexivity|].
  apply (Distance_symmetry_amended UnitX {| X := 3; Y := 4; Z := 0 |});
    reflexivity.
Defined.

(** ** Reflexivity of [Equal] *)

(** C9, as stated, fails: no component of (+Inf, 0, 0) is NaN, yet the
    vector is not [Equal] to itself, since Inf - Inf is NaN. *)
Lemma Equal_reflexive_counterexample :
  is_nan (X {| X := infinity; Y := 0; Z := 0 |}) = false /\
  is_nan (Y {| X := infinity; Y := 0; Z := 0 |}) = false /\
  is_nan (Z {| X := infinity; Y := 0; Z := 0 |}) = false /\
  Equal {| X := infinity; Y := 0; Z := 0 |}
        {| X := infinity; Y := 0; Z := 0 |} = false.
Proof. repeat split. Qed.

(** C9, amended: [Equal v v] is true when the three components of [v] are
    finite, and false as soon as one of them is NaN or an infinity;
    [Differ v v] is its negation. *)
Theorem Equal_reflexive_iff_finite (v : Vector3) :
  Equal v v = is_finite (X v) && is_finite (Y v) && is_finite (Z v) /\
  Differ v v = negb (is_finite (X v) && is_finite (Y v) && is_finite (Z v)).
Proof. unfold Differ. now rewrite Equal_self. Qed.

(** ** Conversion to and from maps *)

Lemma VectorFromMap_AsMap (v : Vector3) :
  VectorFromMap (boxed (AsMap v)) = Return v.
Proof. now destruct v. Qed.

(** C4, as stated, fails: a vector with a NaN component comes back from
    the map unchanged, and is not [Equal] to itself. *)
Lemma roundtrip_Equal_counterexample :
  VectorFromMap (boxed (AsMap {| X := nan; Y := 0; Z := 0 |})) =
    Return {| X := nan; Y := 0; Z := 0 |} /\
  Equal {| X := nan; Y := 0; Z := 0 |} {| X := nan; Y := 0; Z := 0 |} = false.
Proof. split; reflexivity. Qed.

(** C4, amended: for every [v], [VectorFromMap] of the map made by [AsMap]
    returns a vector with exactly the components of [v]; the result is
    [Equal] to [v] when, and only when, all three components are finite. *)
Theorem roundtrip_amended (v : Vector3) :
  exists w, VectorFromMap (boxed (AsMap v)) = Return w /\
            w = v /\ Equal w v = Finite v.
Proof.
  exists v. split; [apply VectorFromMap_AsMap|]. split; [reflexivity|].
  apply Equal_self.
Qed.

(** What reading one key and asserting [float64] does: it returns the
    number stored there, or panics when there is none. *)
Lemma assert_index_cases (m : gmap string any) (k : string) :
  (exists f, m !! k = Some (Float64 f) /\
             assert_float64 (index m k) = Return f) \/
  (missing_or_not_float64 m k /\
   exists c, assert_float64 (index m k) = Panic c).
Proof.
  unfold index, missing_or_not_float64.
  destruct (m !! k) as [x|] eqn:E; cbn.
  - destruct x; cbn; eauto;
      right; (split; [right; eexists; split; [reflexivity|discriminate]|eauto]).
  - right. eauto.
Qed.

Lemma missing_not_float64 (m : gmap string any) (k : string) (f : float64) :
  missing_or_not_float64 m k -> m !! k = Some (Float64 f) -> False.
Proof.
  intros [E|(x & E & Hx)] H; rewrite H in E; [discriminate|].
  injection E as <-. now apply (Hx f).
Qed.

Lemma VectorFromMap_Return (m : gmap string any) (a b c : float64) :
  m !! "x"%string = Some (Float64 a) ->
  m !! "y"%string = Some (Float64 b) ->
  m !! "z"%string = Some (Float64 c) ->
  VectorFromMap m = Return {| X := a; Y := b; Z := c |}.
Proof.
  intros Hx Hy Hz. unfold VectorFromMap, index. now rewrite Hx, Hy, Hz.
Qed.

Lemma VectorFromMap_agree (m1 m2 : gmap string any) :
  m1 !! "x"%string = m2 !! "x"%string ->
  m1 !! "y"%string = m2 !! "y"%string ->
  m1 !! "z"%string = m2 !! "z"%string ->
  VectorFromMap m1 = VectorFromMap m2.
Proof.
  intros Hx Hy Hz. unfold VectorFromMap, index. now rewrite Hx, Hy, Hz.
Qed.

(** C2: [VectorFromMap m] panics (it has no error result to return) if and
    only if one of the keys "x", "y", "z" is missing from [m] or holds a
    value that is not a [float64]; when the three keys hold numbers, it
    returns the vector with those components. *)
Theorem VectorFromMap_panics_iff (m : gmap string any) :
  ((exists c, VectorFromMap m = Panic c) <->
   missing_or_not_float64 m "x" \/
   missing_or_not_float64 m "y" \/
   missing_or_not_float64 m "z") /\
  (forall a b c : float64,
     m !! "x"%string = Some (Float64 a) ->
     m !! "y"%string = Some (Float64 b) ->
     m !! "z"%string = Some (Float64 c) ->
     VectorFromMap m = Return {| X := a; Y := b; Z := c |}).
Proof.
  split; [|apply VectorFromMap_Return].
  unfold VectorFromMap.
  destruct (assert_index_cases m "x") as [(a & Ha & ->)|(Bx & cx & ->)];
    [|split; eauto].
  destruct (assert_index_cases m "y") as [(b & Hb & ->)|(By & cy & ->)];
    [|split; eauto].
  destruct (assert_index_cases m "z") as [(c & Hc & ->)|(Bz & cz & ->)];
    [|split; eauto].
  cbn. split; [intros [? [=]]|].
  intros [B|[B|B]]; exfalso; eauto using missing_not_float64.
Qed.

(** A well-formed map returns; the empty map, a map without "z" and a map
    whose "y" is a string panic. *)
Lemma VectorFromMap_panics_iff_witness :
  VectorFromMap {[ "x"%string := Float64 1; "y"%string := Float64 2;
                   "z"%string := Float64 3 ]} =
    Return {| X := 1; Y := 2; Z := 3 |} /\
  VectorFromMap ∅ = Panic None /\
  VectorFromMap {[ "x"%string := Float64 1; "y"%string := String "2";
                   "z"%string := Float64 3 ]} = Panic (Some "string"%string).
Proof.
  split; [|split; reflexivity].
  now apply (VectorFromMap_panics_iff
               {[ "x"%string := Float64 1; "y"%string := Float64 2;
                  "z"%string := Float64 3 ]}).
Defined.

(** C10: the result of [VectorFromMap] depends only on the entries at "x",
    "y" and "z": two maps that agree there give the same outcome, and when
    the three entries are numbers both calls return the vector of those
    numbers, whatever else the maps hold. *)
Theorem VectorFromMap_depends_only_on_xyz (m1 m2 : gmap string any) :
  m1 !! "x"%string = m2 !! "x"%string ->
  m1 !! "y"%string = m2 !! "y"%string ->
  m1 !! "z"%string = m2 !! "z"%string ->
  VectorFromMap m1 = VectorFromMap m2 /\
  (forall a b c : float64,
     m1 !! "x"%string = Some (Float64 a) ->
     m1 !! "y"%string = Some (Float64 b) ->
     m1 !! "z"%string = Some (Float64 c) ->
     VectorFromMap m1 = Return {| X := a; Y := b; Z := c |} /\
     VectorFromMap m2 = Return {| X := a; Y := b; Z := c |}).
Proof.
  intros Hx Hy Hz. split; [now apply VectorFromMap_agree|].
  intros a b c Ha Hb Hc. split; [now apply VectorFromMap_Return|].
  apply VectorFromMap_Return; congruence.
Qed.

(** Entries under "w" and "name" change nothing. *)
Lemma VectorFromMap_depends_only_on_xyz_witness :
  VectorFromMap {[ "x"%string := Float64 1; "y"%string := Float64 2;
                   "z"%string := Float64 3 ]} =
  VectorFromMap {[ "w"%string := Nil; "x"%string := Float64 1;
                   "name"%string := String "p"; "y"%string := Float64 2;
                   "z"%string := Float64 3 ]}.
Proof.
  now apply (VectorFromMap_depends_only_on_xyz
               {[ "x"%string := Float64 1; "y"%string := Float64 2;
                  "z"%string := Float64 3 ]}
               {[ "w"%string := Nil; "x"%string := Float64 1;
                  "name"%string := String "p"; "y"%string := Float64 2;
                  "z"%string := Float64 3 ]}).
Defined.

(** ** Further properties of the operations *)

Lemma Prim2SF_consts :
  Prim2SF 0 = S754_zero false /\
  Prim2SF 1 = S754_finite false 4503599627370496 (-52) /\
  Prim2SF (-1) = S754_finite true 4503599627370496 (-52) /\
  Prim2SF nan = S754_nan /\
  Prim2SF infinity = S754_infinity false.
Proof. repeat split. Qed.

Lemma float_add_comm (x y : float64) : x + y = y + x.
Proof. apply Prim2SF_inj. rewrite !add_spec. apply SF.add_comm. Qed.

Lemma float_abs_sub_swap (x y : float64) : abs (x - y) = abs (y - x).
Proof.
  apply Prim2SF_inj. rewrite !abs_spec, !sub_spec. apply SF.abs_sub_swap.
Qed.

Lemma float_sub_diag (x : float64) : x - x = if is_finite x then 0 else nan.
Proof.
  apply Prim2SF_inj. rewrite sub_spec, SF.sub_diag, is_finite_spec.
  now destruct (SF.finiteb (Prim2SF x)).
Qed.

Lemma float_sub_zero (x : float64) : x - 0 = x.
Proof. apply Prim2SF_inj. rewrite sub_spec. apply SF.sub_zero. Qed.

Lemma float_add_zero (x : float64) : x + 0 = if is_zero x then 0 else x.
Proof.
  apply Prim2SF_inj. rewrite add_spec, is_zero_spec.
  change (Prim2SF 0) with (S754_zero false). rewrite SF.add_zero.
  now destruct (SF.zerob (Prim2SF x)).
Qed.

Lemma float_mul_one (x : float64) : x * 1 = x.
Proof.
  apply Prim2SF_inj. rewrite mul_spec. apply SF.mul_one, Prim2SF_valid.
Qed.

Lemma float_mul_neg_one (x : float64) : x * (-1) = - x.
Proof.
  apply Prim2SF_inj. rewrite mul_spec, opp_spec.
  apply SF.mul_neg_one, Prim2SF_valid.
Qed.

Lemma float_div_one (x : float64) : x / 1 = x.
Proof.
  apply Prim2SF_inj. rewrite div_spec. apply SF.div_one, Prim2SF_valid.
Qed.

Lemma float_sq_opp (x : float64) : (- x) * (- x) = x * x.
Proof.
  apply Prim2SF_inj. rewrite !mul_spec, opp_spec. apply SF.mul_self_abs.
  now destruct (Prim2SF x).
Qed.

Lemma float_eqb_opp_swap (p q : float64) :
  (p - q =? - (q - p)) = negb (is_nan (p - q)).
Proof.
  rewrite FloatAxioms.eqb_spec, opp_spec, !sub_spec, is_nan_spec, sub_spec.
  apply SF.eqb_opp_swap.
Qed.

(** *** Identities and absorbing elements of the arithmetic *)

(** X1: [Add] is commutative, on all inputs. *)
Theorem Add_commutative (a b : Vector3) : Add a b = Add b a.
Proof.
  unfold Add. now rewrite (float_add_comm (X a)), (float_add_comm (Y a)),
    (float_add_comm (Z a)).
Qed.

(** X2: [Dot] is commutative, on all inputs. *)
Theorem Dot_commutative (a b : Vector3) : Dot a b = Dot b a.
Proof.
  unfold Dot. now rewrite (float_mul_comm (X a)), (float_mul_comm (Y a)),
    (float_mul_comm (Z a)).
Qed.

(** X3: Multiplying and dividing by 1 return the vector itself, whatever its
    components, NaN and infinities included. *)
Theorem Multiply_Divide_one (v : Vector3) : Multiply v 1 = v /\ Divide v 1 = v.
Proof.
  unfold Multiply, Divide. rewrite !float_mul_one, !float_div_one.
  now destruct v.
Qed.

(** X4: Multiplying by -1 flips the sign of every component and keeps the
    magnitude. *)
Theorem Multiply_neg_one (v : Vector3) :
  Multiply v (-1) = {| X := - X v; Y := - Y v; Z := - Z v |} /\
  Abs (Multiply v (-1)) = Abs v.
Proof.
  unfold Multiply. rewrite !float_mul_neg_one. split; [reflexivity|].
  unfold Abs; cbn [X Y Z]. now rewrite !float_sq_opp.
Qed.

(** X5: Subtracting the origin changes nothing, and subtracting a vector from
    itself gives +0 on its finite components and NaN on the others. *)
Theorem Subtract_origin_and_self (v : Vector3) :
  Subtract v origin = v /\
  Subtract v v =
  {| X := if is_finite (X v) then 0 else nan;
     Y := if is_finite (Y v) then 0 else nan;
     Z := if is_finite (Z v) then 0 else nan |}.
Proof.
  unfold Subtract, origin; cbn [X Y Z].
  rewrite !float_sub_zero, !float_sub_diag. now destruct v.
Qed.

(** X6: Adding the origin keeps every component, except that a negative zero
    becomes +0. *)
Theorem Add_origin (v : Vector3) :
  Add v origin =
  {| X := if is_zero (X v) then 0 else X v;
     Y := if is_zero (Y v) then 0 else Y v;
     Z := if is_zero (Z v) then 0 else Z v |}.
Proof. unfold Add, origin; cbn [X Y Z]. now rewrite !float_add_zero. Qed.

Lemma float_mul_zero (x k : float64) :
  is_zero k = true ->
  is_zero (x * k) = is_finite x /\ is_nan (x * k) = negb (is_finite x).
Proof.
  rewrite !is_zero_spec, is_nan_spec, is_finite_spec, mul_spec. intros H.
  now rewrite SF.mul_zero_zerob, SF.mul_zero_nanb.
Qed.

(** X7: Multiplying by a zero gives a zero on the finite components and NaN on
    the infinite and NaN ones. *)
Theorem Multiply_zero (v : Vector3) (k : float64) :
  is_zero k = true ->
  (is_zero (X (Multiply v k)) = is_finite (X v) /\
   is_nan (X (Multiply v k)) = negb (is_finite (X v))) /\
  (is_zero (Y (Multiply v k)) = is_finite (Y v) /\
   is_nan (Y (Multiply v k)) = negb (is_finite (Y v))) /\
  (is_zero (Z (Multiply v k)) = is_finite (Z v) /\
   is_nan (Z (Multiply v k)) = negb (is_finite (Z v))).
Proof. intros H. unfold Multiply; cbn [X Y Z]. auto using float_mul_zero. Qed.

Lemma Multiply_zero_witness :
  is_zero (-0) = true /\
  is_zero (X (Multiply {| X := 3; Y := infinity; Z := nan |} (-0))) = true /\
  is_nan (Y (Multiply {| X := 3; Y := infinity; Z := nan |} (-0))) = true.
Proof.
  split; [reflexivity|].
  destruct (Multiply_zero {| X := 3; Y := infinity; Z := nan |} (-0) eq_refl)
    as ((Hx & _) & (_ & Hy) & _).
  split; [exact Hx|exact Hy].
Defined.

Lemma float_div_zero (x k : float64) :
  is_zero k = true ->
  is_nan (x / k) = is_nan x || is_zero x /\
  is_infinity (x / k) = negb (is_nan x || is_zero x).
Proof.
  rewrite !is_zero_spec, !is_nan_spec, is_infinity_spec, div_spec. intros H.
  now rewrite SF.div_zero_nanb, SF.div_zero_infb.
Qed.

(** X8: Dividing by a zero does not fail: a component that is a zero or NaN
    becomes NaN, every other component becomes an infinity. *)
Theorem Divide_zero (v : Vector3) (k : float64) :
  is_zero k = true ->
  (is_nan (X (Divide v k)) = is_nan (X v) || is_zero (X v) /\
   is_infinity (X (Divide v k)) = negb (is_nan (X v) || is_zero (X v))) /\
  (is_nan (Y (Divide v k)) = is_nan (Y v) || is_zero (Y v) /\
   is_infinity (Y (Divide v k)) = negb (is_nan (Y v) || is_zero (Y v))) /\
  (is_nan (Z (Divide v k)) = is_nan (Z v) || is_zero (Z v) /\
   is_infinity (Z (Divide v k)) = negb (is_nan (Z v) || is_zero (Z v))).
Proof. intros H. unfold Divide; cbn [X Y Z]. auto using float_div_zero. Qed.

Lemma Divide_zero_witness :
  is_zero 0 = true /\
  is_infinity (X (Divide {| X := 3; Y := 0; Z := nan |} 0)) = true /\
  is_nan (Y (Divide {| X := 3; Y := 0; Z := nan |} 0)) = true.
Proof.
  split; [reflexivity|].
  destruct (Divide_zero {| X := 3; Y := 0; Z := nan |} 0 eq_refl)
    as ((_ & Hx) & (Hy & _) & _).
  split; [exact Hx|exact Hy].
Defined.

(** *** The comparisons *)

(** X9: [Equal] and [Differ] do not depend on the order of their arguments. *)
Theorem Equal_symmetric (a b : Vector3) :
  Equal a b = Equal b a /\ Differ a b = Differ b a.
Proof.
  unfold Differ, Equal.
  now rewrite (float_abs_sub_swap (X a)), (float_abs_sub_swap (Y a)),
    (float_abs_sub_swap (Z a)).
Qed.

Lemma axis_below_finite (x y : float64) :
  (abs (x - y) <? threshold) = true -> is_finite x = true /\ is_finite y = true.
Proof.
  rewrite FloatAxioms.ltb_spec, abs_spec, sub_spec, !is_finite_spec.
  now apply SF.abs_sub_ltb_finite.
Qed.

(** X10: Two vectors that are [Equal] have finite components only: a NaN or an
    infinity on either side makes [Equal] false. *)
Theorem Equal_only_finite (a b : Vector3) :
  Equal a b = true -> Finite a = true /\ Finite b = true.
Proof.
  unfold Equal, Finite. rewrite !andb_true_iff.
  intros [[Hx Hy] Hz].
  apply axis_below_finite in Hx as [? ?], Hy as [? ?], Hz as [? ?]. auto.
Qed.

Lemma Equal_only_finite_witness :
  Equal UnitX {| X := 1; Y := five_millionths; Z := 0 |} = true /\
  Finite UnitX = true /\
  Finite {| X := 1; Y := five_millionths; Z := 0 |} = true.
Proof.
  split; [reflexivity|].
  apply (Equal_only_finite UnitX {| X := 1; Y := five_millionths; Z := 0 |}).
  reflexivity.
Defined.

Lemma axis_below_leb (x y : float64) :
  (abs (x - y) <? threshold) = true ->
  (x - y <=? threshold) = true /\ (y - x <=? threshold) = true.
Proof.
  intros H. split.
  - revert H. rewrite FloatAxioms.ltb_spec, FloatAxioms.leb_spec, abs_spec.
    apply SF.abs_ltb_leb.
  - rewrite float_abs_sub_swap in H. revert H.
    rewrite FloatAxioms.ltb_spec, FloatAxioms.leb_spec, abs_spec.
    apply SF.abs_ltb_leb.
Qed.

(** X11: Vectors that are [Equal] are both [LesserOrEqual] and [GreaterOrEqual],
    in either order. *)
Theorem Equal_implies_both_orders (a b : Vector3) :
  Equal a b = true ->
  LesserOrEqual a b = true /\ GreaterOrEqual a b = true /\
  LesserOrEqual b a = true /\ GreaterOrEqual b a = true.
Proof.
  unfold Equal, LesserOrEqual, GreaterOrEqual. rewrite !andb_true_iff.
  intros [[Hx Hy] Hz].
  apply axis_below_leb in Hx as [? ?], Hy as [? ?], Hz as [? ?]. auto 10.
Qed.

Lemma Equal_implies_both_orders_witness :
  Equal UnitX {| X := 1; Y := five_millionths; Z := 0 |} = true /\
  LesserOrEqual UnitX {| X := 1; Y := five_millionths; Z := 0 |} = true /\
  GreaterOrEqual UnitX {| X := 1; Y := five_millionths; Z := 0 |} = true.
Proof.
  split; [reflexivity|].
  destruct (Equal_implies_both_orders
              UnitX {| X := 1; Y := five_millionths; Z := 0 |} eq_refl)
    as (H1 & H2 & _).
  split; [exact H1|exact H2].
Defined.

(** X12: [Equal] is not transitive: a step of 0.000005 on one axis is within the
    threshold, two such steps together are not. *)
Theorem Equal_not_transitive :
  ~ (forall a b c : Vector3,
       Equal a b = true -> Equal b c = true -> Equal a c = true).
Proof.
  intros H.
  specialize (H origin
                {| X := 0; Y := 0; Z := five_millionths |}
                {| X := 0; Y := 0; Z := five_millionths + five_millionths |}
                eq_refl eq_refl).
  discriminate H.
Qed.

Lemma axis_leb_self (x : float64) : (x - x <=? threshold) = is_finite x.
Proof.
  rewrite float_sub_diag. now destruct (is_finite x).
Qed.

(** X13: [LesserOrEqual] and [GreaterOrEqual] hold between a vector and itself
    exactly when its three components are finite. *)
Theorem LesserOrEqual_GreaterOrEqual_self (v : Vector3) :
  LesserOrEqual v v = Finite v /\ GreaterOrEqual v v = Finite v.
Proof.
  unfold LesserOrEqual, GreaterOrEqual, Finite. now rewrite !axis_leb_self.
Qed.

Lemma axis_leb_not_nan (x y : float64) :
  (x - y <=? threshold) = true -> is_nan x = false /\ is_nan y = false.
Proof.
  rewrite FloatAxioms.leb_spec, sub_spec, !is_nan_spec.
  apply SF.sub_leb_not_nan.
Qed.

(** X14: [LesserOrEqual] is false as soon as a component of either vector is
    NaN. *)
Theorem LesserOrEqual_no_NaN (a b : Vector3) :
  LesserOrEqual a b = true ->
  is_nan (X a) || is_nan (Y a) || is_nan (Z a) = false /\
  is_nan (X b) || is_nan (Y b) || is_nan (Z b) = false.
Proof.
  unfold LesserOrEqual. rewrite !andb_true_iff. intros [[Hx Hy] Hz].
  apply axis_leb_not_nan in Hx as [-> ->], Hy as [-> ->], Hz as [-> ->].
  auto.
Qed.

(** The tolerance lets a vector pass that is larger by the threshold, and
    infinities pass too. *)
Lemma LesserOrEqual_no_NaN_witness :
  LesserOrEqual {| X := threshold; Y := neg_infinity; Z := 0 |}
                {| X := 0; Y := 1; Z := infinity |} = true /\
  is_nan threshold || is_nan neg_infinity || is_nan 0 = false.
Proof.
  split; [reflexivity|].
  apply (LesserOrEqual_no_NaN
           {| X := threshold; Y := neg_infinity; Z := 0 |}
           {| X := 0; Y := 1; Z := infinity |}).
  reflexivity.
Defined.

(** X15: [GreaterOrEqual] is [LesserOrEqual] with the arguments exchanged, so it
    is false too as soon as a component is NaN. *)
Theorem GreaterOrEqual_no_NaN (a b : Vector3) :
  GreaterOrEqual a b = true ->
  LesserOrEqual b a = true /\
  is_nan (X a) || is_nan (Y a) || is_nan (Z a) = false /\
  is_nan (X b) || is_nan (Y b) || is_nan (Z b) = false.
Proof.
  intros H. split; [exact H|].
  revert H. unfold GreaterOrEqual. rewrite !andb_true_iff. intros [[Hx Hy] Hz].
  apply axis_leb_not_nan in Hx as [-> ->], Hy as [-> ->], Hz as [-> ->].
  auto.
Qed.

Lemma GreaterOrEqual_no_NaN_witness :
  GreaterOrEqual UnitX origin = true /\ LesserOrEqual origin UnitX = true.
Proof.
  split; [reflexivity|].
  destruct (GreaterOrEqual_no_NaN UnitX origin eq_refl) as [H _]. exact H.
Defined.

(** *** Magnitude and distance *)

Lemma sum_squares_nan_or_nonneg (x y z : float64) :
  SF.nanb (Prim2SF (x * x + y * y + z * z)) = true \/
  SF.nonneg (Prim2SF (x * x + y * y + z * z)).
Proof.
  rewrite !add_spec, !mul_spec.
  repeat apply SF.nan_or_nonneg_add; apply SF.nan_or_nonneg_mul_self.
Qed.

(** X16: The magnitude is NaN exactly when a component is NaN; otherwise it is at
    least zero, and in no case is it below zero.  The same holds of a
    distance, which is a magnitude. *)
Theorem Abs_NaN_or_nonnegative (v : Vector3) :
  is_nan (Abs v) = is_nan (X v) || is_nan (Y v) || is_nan (Z v) /\
  (0 <=? Abs v) = negb (is_nan (Abs v)) /\
  (Abs v <? 0) = false /\
  (forall p : Vector3, (Distance p v <? 0) = false).
Proof.
  assert (N : forall w, SF.nanb (Prim2SF (Abs w)) = true \/
                        SF.nonneg (Prim2SF (Abs w))).
  { intros w. unfold Abs. rewrite sqrt_spec.
    apply SF.nan_or_nonneg_sqrt, sum_squares_nan_or_nonneg. }
  assert (L : forall w, (Abs w <? 0) = false).
  { intros w. rewrite FloatAxioms.ltb_spec. now apply SF.nonneg_not_ltb. }
  split; [|split; [|split]].
  - rewrite !is_nan_spec. unfold Abs.
    rewrite sqrt_spec, SF.sqrt_nonneg_nan by apply sum_squares_nan_or_nonneg.
    rewrite !add_spec, !mul_spec.
    rewrite !SF.add_nonneg_nan, !SF.mul_self_nan;
      repeat apply SF.nan_or_nonneg_add; try apply SF.nan_or_nonneg_mul_self.
    reflexivity.
  - rewrite is_nan_spec, FloatAxioms.leb_spec.
    destruct (N v) as [H|H]; [now destruct (Prim2SF (Abs v))|].
    rewrite (SF.signed_not_nan _ _ H). now apply SF.nonneg_leb.
  - apply L.
  - intros p. apply L.
Qed.

(** X17: The distance from a point to itself is exactly 0 when its coordinates
    are finite, and NaN when one of them is NaN or an infinity. *)
Theorem Distance_self (p : Vector3) :
  Distance p p = if Finite p then 0 else nan.
Proof.
  unfold Distance, SubtractPoints, Abs, Finite; cbn [X Y Z].
  rewrite !float_sub_diag.
  now destruct (is_finite (X p)), (is_finite (Y p)), (is_finite (Z p)).
Qed.

Lemma Abs_infinite_SF (v : Vector3) :
  is_nan (X v) || is_nan (Y v) || is_nan (Z v) = false ->
  is_infinity (X v) || is_infinity (Y v) || is_infinity (Z v) = true ->
  Abs v = infinity.
Proof.
  rewrite !is_nan_spec, !is_infinity_spec, !orb_false_iff.
  intros [[Hx Hy] Hz] H. apply Prim2SF_inj. unfold Abs.
  rewrite sqrt_spec, !add_spec, !mul_spec.
  now apply SF.sqrt_sum_squares_inf.
Qed.

Lemma float_div_infinity (x : float64) :
  is_nan x = false ->
  is_nan (x / infinity) = is_infinity x /\
  is_zero (x / infinity) = is_finite x.
Proof.
  rewrite !is_nan_spec, is_infinity_spec, is_zero_spec, is_finite_spec, div_spec.
  change (Prim2SF infinity) with (S754_infinity false). rewrite SF.div_inf.
  now destruct (Prim2SF x).
Qed.

(** X18: A vector with an infinite component and no NaN has magnitude +Inf, and
    its normalisation is not a unit vector: its infinite components become
    NaN and its finite ones zero. *)
Theorem Normalized_infinite_component (v : Vector3) :
  is_nan (X v) || is_nan (Y v) || is_nan (Z v) = false ->
  is_infinity (X v) || is_infinity (Y v) || is_infinity (Z v) = true ->
  Abs v = infinity /\
  (is_nan (X (Normalized v)) = is_infinity (X v) /\
   is_zero (X (Normalized v)) = is_finite (X v)) /\
  (is_nan (Y (Normalized v)) = is_infinity (Y v) /\
   is_zero (Y (Normalized v)) = is_finite (Y v)) /\
  (is_nan (Z (Normalized v)) = is_infinity (Z v) /\
   is_zero (Z (Normalized v)) = is_finite (Z v)).
Proof.
  intros Hn Hi. pose proof (Abs_infinite_SF v Hn Hi) as E.
  split; [exact E|].
  unfold Normalized, Divide; cbn [X Y Z]. rewrite E.
  apply orb_false_iff in Hn as [Hn Hz]. apply orb_false_iff in Hn as [Hx Hy].
  auto using float_div_infinity.
Qed.

Lemma Normalized_infinite_component_witness :
  Abs {| X := neg_infinity; Y := 2; Z := 0 |} = infinity /\
  is_nan (X (Normalized {| X := neg_infinity; Y := 2; Z := 0 |})) = true /\
  is_zero (Y (Normalized {| X := neg_infinity; Y := 2; Z := 0 |})) = true.
Proof.
  destruct (Normalized_infinite_component
              {| X := neg_infinity; Y := 2; Z := 0 |} eq_refl eq_refl)
    as (E & (Hx & _) & (_ & Hy) & _).
  split; [exact E|]. split; [exact Hx|exact Hy].
Defined.

(** *** Cross product and reflection *)

(** X19: The cross product of a vector with itself has, on each axis, +0 when the
    product of the two other components is finite, and NaN when it
    overflows or is NaN. *)
Theorem Cross_self (v : Vector3) :
  Cross v v =
  {| X := if is_finite (Y v * Z v) then 0 else nan;
     Y := if is_finite (Z v * X v) then 0 else nan;
     Z := if is_finite (X v * Y v) then 0 else nan |}.
Proof.
  unfold Cross.
  rewrite (float_mul_comm (Z v) (Y v)), (float_mul_comm (X v) (Z v)),
    (float_mul_comm (Y v) (X v)).
  now rewrite !float_sub_diag.
Qed.

(** X20: Anti-commutativity: on each axis, [Cross a b] compares equal ([==]) to
    the component of [Cross b a] multiplied by -1, unless it is NaN. *)
Theorem Cross_anticommutative (a b : Vector3) :
  (X (Cross a b) =? X (Multiply (Cross b a) (-1))) = negb (is_nan (X (Cross a b))) /\
  (Y (Cross a b) =? Y (Multiply (Cross b a) (-1))) = negb (is_nan (Y (Cross a b))) /\
  (Z (Cross a b) =? Z (Multiply (Cross b a) (-1))) = negb (is_nan (Z (Cross a b))).
Proof.
  unfold Multiply, Cross; cbn [X Y Z]. rewrite !float_mul_neg_one.
  rewrite (float_mul_comm (Y b) (Z a)), (float_mul_comm (Z b) (Y a)),
    (float_mul_comm (Z b) (X a)), (float_mul_comm (X b) (Z a)),
    (float_mul_comm (X b) (Y a)), (float_mul_comm (Y b) (X a)).
  auto using float_eqb_opp_swap.
Qed.

Lemma float_zero_mul (k : float64) : is_finite k = true -> is_zero (0 * k) = true.
Proof.
  rewrite is_finite_spec, is_zero_spec, mul_spec. now apply SF.zero_mul_zerob.
Qed.

(** X21: Reflecting a finite vector off itself gives a zero vector (not its
    opposite), provided the doubled dot product does not overflow. *)
Theorem Reflect_self_zero (v : Vector3) :
  Finite v = true -> is_finite (Dot v v * 2) = true ->
  is_zero (X (Reflect v v)) = true /\
  is_zero (Y (Reflect v v)) = true /\
  is_zero (Z (Reflect v v)) = true.
Proof.
  unfold Finite. rewrite !andb_true_iff. intros [[Hx Hy] Hz] Hd.
  unfold Reflect, Multiply, Subtract; cbn [X Y Z].
  rewrite !float_sub_diag, Hx, Hy, Hz. auto using float_zero_mul.
Qed.

Lemma Reflect_self_zero_witness :
  Finite {| X := 1; Y := 2; Z := 3 |} = true /\
  Reflect {| X := 1; Y := 2; Z := 3 |} {| X := 1; Y := 2; Z := 3 |} = origin /\
  is_zero (X (Reflect {| X := 1; Y := 2; Z := 3 |}
                      {| X := 1; Y := 2; Z := 3 |})) = true.
Proof.
  split; [reflexivity|]. split; [reflexivity|].
  apply (Reflect_self_zero {| X := 1; Y := 2; Z := 3 |}); reflexivity.
Defined.

(** *** Maps *)

(** X22: The map made by [AsMap] has the three keys "x", "y", "z" and no other,
    each holding the corresponding component. *)
Theorem AsMap_entries (v : Vector3) :
  AsMap v !! "x"%string = Some (X v) /\
  AsMap v !! "y"%string = Some (Y v) /\
  AsMap v !! "z"%string = Some (Z v) /\
  dom (AsMap v) = ({[ "x"; "y"; "z" ]} : gset string)%string /\
  size (AsMap v) = 3%nat.
Proof.
  split; [reflexivity|]. split; [reflexivity|]. split; [reflexivity|].
  unfold AsMap. split.
  - rewrite !dom_insert_L, dom_singleton_L. set_solver.
  - rewrite !map_size_insert_None, map_size_singleton;
      [reflexivity|now simplify_map_eq..].
Qed.

(** X23: Different vectors give different maps. *)
Theorem AsMap_injective (v w : Vector3) : AsMap v = AsMap w -> v = w.
Proof.
  intros H.
  assert (Hx : Some (X v) = Some (X w))
    by (change (AsMap v !! "x"%string = AsMap w !! "x"%string); now rewrite H).
  assert (Hy : Some (Y v) = Some (Y w))
    by (change (AsMap v !! "y"%string = AsMap w !! "y"%string); now rewrite H).
  assert (Hz : Some (Z v) = Some (Z w))
    by (change (AsMap v !! "z"%string = AsMap w !! "z"%string); now rewrite H).
  destruct v, w; cbn in *. congruence.
Qed.

Lemma AsMap_injective_witness :
  AsMap UnitX = AsMap {| X := 0.5 + 0.5; Y := 0; Z := 0 |} /\
  UnitX = {| X := 0.5 + 0.5; Y := 0; Z := 0 |}.
Proof.
  split; [reflexivity|].
  apply (AsMap_injective UnitX {| X := 0.5 + 0.5; Y := 0; Z := 0 |}).
  reflexivity.
Defined.

(** X24: On a map of numbers, each stored as a [float64], [VectorFromMap] can
    only fail for a missing key: it returns when the three keys are there
    and panics on the nil interface otherwise. *)
Theorem VectorFromMap_boxed (m : gmap string float64) :
  VectorFromMap (boxed m) =
  match m !! "x"%string, m !! "y"%string, m !! "z"%string with
  | Some x, Some y, Some z => Return {| X := x; Y := y; Z := z |}
  | _, _, _ => Panic None
  end.
Proof.
  unfold VectorFromMap, index, boxed. rewrite !lookup_fmap.
  now destruct (m !! "x"%string), (m !! "y"%string), (m !! "z"%string).
Qed.

Lemma VectorFromMap_Return_inv (m : gmap string any) (v : Vector3) :
  VectorFromMap m = Return v ->
  m !! "x"%string = Some (Float64 (X v)) /\
  m !! "y"%string = Some (Float64 (Y v)) /\
  m !! "z"%string = Some (Float64 (Z v)).
Proof.
  unfold VectorFromMap.
  destruct (assert_index_cases m "x") as [(a & Ha & ->)|(_ & ? & ->)];
    [|discriminate].
  destruct (assert_index_cases m "y") as [(b & Hb & ->)|(_ & ? & ->)];
    [|discriminate].
  destruct (assert_index_cases m "z") as [(c & Hc & ->)|(_ & ? & ->)];
    [|discriminate].
  cbn. intros [= <-]. auto.
Qed.

(** X25: When [VectorFromMap] returns [v], the map holds the components of [v]
    as [float64] under "x", "y" and "z"; if it holds nothing else, it is the
    map that [AsMap v] makes. *)
Theorem VectorFromMap_Return_is_AsMap (m : gmap string any) (v : Vector3) :
  VectorFromMap m = Return v ->
  (m !! "x"%string = Some (Float64 (X v)) /\
   m !! "y"%string = Some (Float64 (Y v)) /\
   m !! "z"%string = Some (Float64 (Z v))) /\
  (dom m = ({[ "x"; "y"; "z" ]} : gset string)%string -> boxed (AsMap v) = m).
Proof.
  intros H. apply VectorFromMap_Return_inv in H as (Hx & Hy & Hz).
  split; [auto|]. intros Hd. apply map_eq. intros k.
  unfold boxed, AsMap. rewrite lookup_fmap.
  destruct (decide (k = "x"%string)) as [->|Nx]; [now rewrite Hx|].
  destruct (decide (k = "y"%string)) as [->|Ny]; [now rewrite Hy|].
  destruct (decide (k = "z"%string)) as [->|Nz]; [now rewrite Hz|].
  rewrite !lookup_insert_ne, lookup_singleton_ne by congruence. cbn.
  symmetry. apply not_elem_of_dom. rewrite Hd.
  rewrite !elem_of_union, !elem_of_singleton. tauto.
Qed.

Lemma VectorFromMap_Return_is_AsMap_witness :
  VectorFromMap {[ "x"%string := Float64 1; "y"%string := Float64 2;
                   "z"%string := Float64 3 ]} =
    Return {| X := 1; Y := 2; Z := 3 |} /\
  boxed (AsMap {| X := 1; Y := 2; Z := 3 |}) =
    {[ "x"%string := Float64 1; "y"%string := Float64 2;
       "z"%string := Float64 3 ]}.
Proof.
  split; [reflexivity|].
  apply (VectorFromMap_Return_is_AsMap
           {[ "x"%string := Float64 1; "y"%string := Float64 2;
              "z"%string := Float64 3 ]}
           {| X := 1; Y := 2; Z := 3 |}); reflexivity.
Defined.

(** *** More on differences, dot products and the two orders *)

(** X26: Exchanging the operands of a subtraction gives, on each axis, the
    opposite component: it compares equal ([==]) to the other difference
    multiplied by -1, unless it is NaN.  The method and the function on
    points compute the same differences. *)
Theorem Subtract_antisymmetric (a b : Vector3) :
  Subtract a b = SubtractPoints a b /\
  (X (Subtract a b) =? X (Multiply (Subtract b a) (-1))) =
    negb (is_nan (X (Subtract a b))) /\
  (Y (Subtract a b) =? Y (Multiply (Subtract b a) (-1))) =
    negb (is_nan (Y (Subtract a b))) /\
  (Z (Subtract a b) =? Z (Multiply (Subtract b a) (-1))) =
    negb (is_nan (Z (Subtract a b))).
Proof.
  split; [reflexivity|].
  unfold Multiply, Subtract; cbn [X Y Z]. rewrite !float_mul_neg_one.
  auto using float_eqb_opp_swap.
Qed.

(** X27: The dot product of a vector with itself is NaN exactly when a component
    is NaN, and is never below zero. *)
Theorem Dot_self_nonnegative (v : Vector3) :
  is_nan (Dot v v) = is_nan (X v) || is_nan (Y v) || is_nan (Z v) /\
  (Dot v v <? 0) = false.
Proof.
  unfold Dot. split.
  - rewrite !is_nan_spec, !add_spec, !mul_spec.
    rewrite !SF.add_nonneg_nan, !SF.mul_self_nan;
      repeat apply SF.nan_or_nonneg_add; try apply SF.nan_or_nonneg_mul_self.
    reflexivity.
  - rewrite FloatAxioms.ltb_spec.
    apply SF.nonneg_not_ltb, sum_squares_nan_or_nonneg.
Qed.

Lemma axis_abs_leb (x y : float64) :
  (abs (x - y) <=? threshold) = (x - y <=? threshold) && (y - x <=? threshold).
Proof.
  rewrite !FloatAxioms.leb_spec, abs_spec, !sub_spec. apply SF.abs_sub_leb.
Qed.

(** X28: [LesserOrEqual] and [GreaterOrEqual] hold together exactly when on each
    axis the absolute difference is at most the threshold: the closed
    counterpart of [Equal], which asks for strictly less. *)
Theorem both_orders_iff_within_threshold (a b : Vector3) :
  LesserOrEqual a b && GreaterOrEqual a b =
  (abs (X a - X b) <=? threshold) &&
  (abs (Y a - Y b) <=? threshold) &&
  (abs (Z a - Z b) <=? threshold).
Proof.
  unfold LesserOrEqual, GreaterOrEqual. rewrite !axis_abs_leb.
  destruct (X a - X b <=? threshold), (Y a - Y b <=? threshold),
    (Z a - Z b <=? threshold), (X b - X a <=? threshold),
    (Y b - Y a <=? threshold), (Z b - Z a <=? threshold); reflexivity.
Qed.
